(** * TradeBot: the scraper supervisor of [TradeBot.cpp]

    The program is one function, [main]: it removes the CSV file left by an
    earlier run, prints a banner and then loops forever, each round running
    [python scraper.py <ticker>] through [std::system], reporting the
    outcome and sleeping.

    [main] talks to its environment only through five library calls
    ([remove], [operator<<] on [std::cout] and on [std::cerr], [system],
    [sleep_for]) and never returns, so it is embedded as an interaction
    tree over one event per call.  A fuelled evaluator gives the tree its
    finite runs against an environment that answers [remove] and
    [system]. *)

From Stdlib Require Import ZArith List String Ascii Bool Lia Arith.
From ITree Require Import ITree.
Import ListNotations.
Import ITreeNotations.
Local Open Scope string_scope.
Local Open Scope Z_scope.
Local Open Scope itree_scope.

(** ** The calls [main] makes *)

(** One event per library call of the source; the index is the type of the
    value the call hands back. *)
Variant procE : Type -> Type :=
| Remove (path : string) : procE Z      (* int remove(const char* ) *)
| Cout (text : string) : procE unit     (* std::cout << ... ;       *)
| Cerr (text : string) : procE unit     (* std::cerr << ... ;       *)
| System (cmd : string) : procE Z       (* int system(const char* ) *)
| SleepFor (secs : Z) : procE unit.     (* sleep_for(seconds(n))    *)

(** The character the source writes as a backslash followed by n. *)
Definition nl : string := String "010"%char EmptyString.

(** [std::string::c_str]: the C functions [remove] and [system] read the
    buffer up to its first NUL character. *)
Fixpoint c_str (s : string) : string :=
  match s with
  | EmptyString => EmptyString
  | String c s' => if Ascii.eqb c "000"%char then EmptyString else String c (c_str s')
  end.

(** ** The program *)

(** Lines 9-37 of [main], as a function of the local [ticker] of line 8.
    A statement that chains several [<<] on one stream is one output event
    carrying the concatenated text. *)
Definition supervisor (ticker : string) : itree procE Z :=
  let csvFilename := ticker ++ "_stock_data.csv" in
  rc <- ITree.trigger (Remove (c_str csvFilename));;
  (if rc =? 0
   then ITree.trigger (Cout ("Deleted old CSV file: " ++ csvFilename ++ nl))
   else ITree.trigger (Cout ("No CSV file to delete or failed to delete." ++ nl)));;
  ITree.trigger (Cout ("Starting stock data scraper for " ++ ticker ++ " every 60 seconds..." ++ nl));;
  (ITree.forever
     (ITree.trigger (Cout ("Running Python scraper for " ++ ticker ++ "..." ++ nl));;
      st <- ITree.trigger (System (c_str ("python scraper.py " ++ ticker)));;
      (if st =? 0
       then ITree.trigger (Cout ("Stock data scraped successfully." ++ nl))
       else ITree.trigger (Cerr ("Failed to run the Python script." ++ nl)));;
      ITree.trigger (Cout ("Waiting 15 seconds..." ++ nl));;
      ITree.trigger (SleepFor 15))
   : itree procE void);;
  Ret 0.

(** [int main()], with [ticker] initialised as on line 8. *)
Definition main : itree procE Z :=
  let ticker := "SPY" in supervisor ticker.

(** ** Finite runs *)

(** A call as seen from outside: what was asked and what came back. *)
Variant call : Type :=
| CRemove (path : string) (rc : Z)
| CCout (text : string)
| CCerr (text : string)
| CSystem (cmd : string) (st : Z)
| CSleep (secs : Z).

(** The environment decides the two results the program reads: what the
    [k]-th [remove] and the [k]-th [system] return for their argument. *)
Record env : Type := {
  remove_status : nat -> string -> Z;
  system_status : nat -> string -> Z
}.

(** How many [remove] and [system] calls have been made so far. *)
Record world : Type := {
  removes : nat;
  spawns : nat
}.

Definition boot : world := {| removes := 0; spawns := 0 |}.

Definition handle (ev : env) (w : world) {T} (e : procE T) : call * world * T :=
  match e in procE T return call * world * T with
  | Remove path =>
      let rc := remove_status ev (removes w) path in
      (CRemove path rc, {| removes := S (removes w); spawns := spawns w |}, rc)
  | Cout text => (CCout text, w, tt)
  | Cerr text => (CCerr text, w, tt)
  | System cmd =>
      let st := system_status ev (spawns w) cmd in
      (CSystem cmd st, {| removes := removes w; spawns := S (spawns w) |}, st)
  | SleepFor secs => (CSleep secs, w, tt)
  end.

(** [run fuel ev w t] takes at most [fuel] steps of [t] (a call, or one
    silent turn of the loop) and gives the calls made, the world reached
    and what is left of [t], forced to its head.  A tree that has returned
    takes no step. *)
Fixpoint run {R} (fuel : nat) (ev : env) (w : world) (t : itree procE R)
  : list call * world * itree procE R :=
  match fuel with
  | O => ([], w, go (observe t))
  | S fuel' =>
      match observe t with
      | RetF r => ([], w, Ret r)
      | TauF t' => run fuel' ev w t'
      | VisF e k =>
          let '(c, w', a) := handle ev w e in
          let '(cs, w'', t') := run fuel' ev w' (k a) in
          (c :: cs, w'', t')
      end
  end.

Definition trace {R} (fuel : nat) (ev : env) (t : itree procE R) : list call :=
  fst (fst (run fuel ev boot t)).

Definition residue {R} (fuel : nat) (ev : env) (t : itree procE R) : itree procE R :=
  snd (run fuel ev boot t).

(** The value a tree has returned, if it has. *)
Definition returned {R} (t : itree procE R) : option R :=
  match observe t with
  | RetF r => Some r
  | _ => None
  end.

(** ** Named parts of [main] *)

(** The body of the [while (true)] of lines 21-35. *)
Definition cycle (ticker : string) : itree procE unit :=
  ITree.trigger (Cout ("Running Python scraper for " ++ ticker ++ "..." ++ nl));;
  st <- ITree.trigger (System (c_str ("python scraper.py " ++ ticker)));;
  (if st =? 0
   then ITree.trigger (Cout ("Stock data scraped successfully." ++ nl))
   else ITree.trigger (Cerr ("Failed to run the Python script." ++ nl)));;
  ITree.trigger (Cout ("Waiting 15 seconds..." ++ nl));;
  ITree.trigger (SleepFor 15).

(** Lines 21-37: the loop, and the [return 0] written after it. *)
Definition cycling (ticker : string) : itree procE Z :=
  (ITree.forever (cycle ticker) : itree procE void);; Ret 0.

(** What the calls of lines 12-19 look like from outside. *)
Definition startup_calls (ticker : string) (ev : env) : list call :=
  let csvFilename := ticker ++ "_stock_data.csv" in
  let rc := remove_status ev 0%nat (c_str csvFilename) in
  [ CRemove (c_str csvFilename) rc;
    (if rc =? 0
     then CCout ("Deleted old CSV file: " ++ csvFilename ++ nl)
     else CCout ("No CSV file to delete or failed to delete." ++ nl));
    CCout ("Starting stock data scraper for " ++ ticker ++ " every 60 seconds..." ++ nl) ].

(** What the [k]-th round of the loop looks like from outside. *)
Definition cycle_calls (ticker : string) (ev : env) (k : nat) : list call :=
  let cmd := c_str ("python scraper.py " ++ ticker) in
  let st := system_status ev k cmd in
  [ CCout ("Running Python scraper for " ++ ticker ++ "..." ++ nl);
    CSystem cmd st;
    (if st =? 0
     then CCout ("Stock data scraped successfully." ++ nl)
     else CCerr ("Failed to run the Python script." ++ nl));
    CCout ("Waiting 15 seconds..." ++ nl);
    CSleep 15 ].

(** The five calls of round [k] inside a trace: three startup calls come
    first and every round makes five. *)
Definition round (k : nat) (tr : list call) : list call :=
  firstn 5 (skipn (3 + 5 * k) tr).

(** ** The vocabulary of the specification *)

(** The outcome of one round. *)
Variant CycleOutcome : Type := Success | Failure.

(** The specification's rule: status 0 is [Success], any other value is
    [Failure]. *)
Definition classify (status : Z) : CycleOutcome :=
  match status with
  | 0 => Success
  | _ => Failure
  end.

(** The line a round prints for an outcome, and the stream it goes to. *)
Definition report (o : CycleOutcome) : call :=
  match o with
  | Success => CCout ("Stock data scraped successfully." ++ nl)
  | Failure => CCerr ("Failed to run the Python script." ++ nl)
  end.

(** Calls that reach the filesystem directly. *)
Definition file_call (c : call) : bool :=
  match c with
  | CRemove _ _ => true
  | _ => false
  end.

Definition system_call (c : call) : bool :=
  match c with
  | CSystem _ _ => true
  | _ => false
  end.

(** The durations slept, in order. *)
Fixpoint pauses (tr : list call) : list Z :=
  match tr with
  | [] => []
  | CSleep secs :: tr' => secs :: pauses tr'
  | _ :: tr' => pauses tr'
  end.

(** A call that carries a path or a command line carries the one built
    from [ticker]. *)
Definition built_from (ticker : string) (c : call) : bool :=
  match c with
  | CRemove path _ => String.eqb path (c_str (ticker ++ "_stock_data.csv"))
  | CSystem cmd _ => String.eqb cmd (c_str ("python scraper.py " ++ ticker))
  | _ => true
  end.

(** The first decimal numeral written in a text. *)
Definition digit (c : ascii) : option Z :=
  let n := Z.of_nat (nat_of_ascii c) in
  if (48 <=? n) && (n <=? 57) then Some (n - 48) else None.

Fixpoint read_number (acc : option Z) (s : string) : option Z :=
  match s with
  | EmptyString => acc
  | String c s' =>
      match digit c, acc with
      | Some d, None => read_number (Some d) s'
      | Some d, Some a => read_number (Some (10 * a + d)) s'
      | None, None => read_number None s'
      | None, Some a => Some a
      end
  end.

Definition announced_seconds (text : string) : option Z := read_number None text.

(** The banner line of [main]. *)
Definition is_banner (c : call) : bool :=
  match c with
  | CCout text =>
      String.eqb text ("Starting stock data scraper for SPY every 60 seconds..." ++ nl)
  | _ => false
  end.

(** An environment whose [remove] answers [rm] and whose [k]-th [system]
    answers [exits k]. *)
Definition env_of (rm : Z) (exits : nat -> Z) : env :=
  {| remove_status := fun _ _ => rm; system_status := fun k _ => exits k |}.

(** ** What reaches each stream *)

(** The texts written to [std::cerr] and to [std::cout], in order. *)
Fixpoint stderr_of (tr : list call) : list string :=
  match tr with
  | [] => []
  | CCerr text :: tr' => text :: stderr_of tr'
  | _ :: tr' => stderr_of tr'
  end.

Fixpoint stdout_of (tr : list call) : list string :=
  match tr with
  | [] => []
  | CCout text :: tr' => text :: stdout_of tr'
  | _ :: tr' => stdout_of tr'
  end.

(** Among the rounds [a], ..., [a + n - 1], those whose [system] call
    returns a value other than 0. *)
Definition failed_rounds (ticker : string) (ev : env) (a n : nat) : list nat :=
  filter (fun k => negb (system_status ev k (c_str ("python scraper.py " ++ ticker)) =? 0))
         (seq a n).

(** [ev] with the answers of [remove] replaced. *)
Definition with_remove (rm : nat -> string -> Z) (ev : env) : env :=
  {| remove_status := rm; system_status := system_status ev |}.

(** A string without a NUL character. *)
Fixpoint no_nul (s : string) : bool :=
  match s with
  | EmptyString => true
  | String c s' => negb (Ascii.eqb c "000"%char) && no_nul s'
  end.

(** ** Running the program by hand *)

Ltac force := lazy -[Z.eqb append c_str remove_status system_status nl].

(** A stale file is removed; the scraper succeeds, then fails. *)
Example run_stale_disk :
  trace 13 (env_of 0 (fun k => Z.of_nat k)) main =
  [ CRemove "SPY_stock_data.csv" 0;
    CCout ("Deleted old CSV file: SPY_stock_data.csv" ++ nl);
    CCout ("Starting stock data scraper for SPY every 60 seconds..." ++ nl);
    CCout ("Running Python scraper for SPY..." ++ nl);
    CSystem "python scraper.py SPY" 0;
    CCout ("Stock data scraped successfully." ++ nl);
    CCout ("Waiting 15 seconds..." ++ nl);
    CSleep 15;
    CCout ("Running Python scraper for SPY..." ++ nl);
    CSystem "python scraper.py SPY" 1;
    CCerr ("Failed to run the Python script." ++ nl);
    CCout ("Waiting 15 seconds..." ++ nl) ].
Proof. vm_compute. reflexivity. Qed.

(** No file to remove, and the interpreter cannot be launched. *)
Example run_clean_disk :
  trace 8 (env_of (-1) (fun _ => 32512)) main =
  [ CRemove "SPY_stock_data.csv" (-1);
    CCout ("No CSV file to delete or failed to delete." ++ nl);
    CCout ("Starting stock data scraper for SPY every 60 seconds..." ++ nl);
    CCout ("Running Python scraper for SPY..." ++ nl);
    CSystem "python scraper.py SPY" 32512;
    CCerr ("Failed to run the Python script." ++ nl);
    CCout ("Waiting 15 seconds..." ++ nl);
    CSleep 15 ].
Proof. vm_compute. reflexivity. Qed.

Example c_str_cuts : c_str (String "A" (String "000" "B")) = "A".
Proof. reflexivity. Qed.

Example announced_in_banner :
  announced_seconds ("Starting stock data scraper for SPY every 60 seconds..." ++ nl) = Some 60.
Proof. reflexivity. Qed.

(** [supervisor] is the three startup statements followed by [cycling]. *)
Lemma supervisor_parts ticker :
  supervisor ticker =
  (rc <- ITree.trigger (Remove (c_str (ticker ++ "_stock_data.csv")));;
   (if rc =? 0
    then ITree.trigger (Cout ("Deleted old CSV file: " ++ (ticker ++ "_stock_data.csv") ++ nl))
    else ITree.trigger (Cout ("No CSV file to delete or failed to delete." ++ nl)));;
   ITree.trigger (Cout ("Starting stock data scraper for " ++ ticker ++ " every 60 seconds..." ++ nl));;
   cycling ticker).
Proof. reflexivity. Qed.

(** ** How [run] composes *)

Lemma run_forced {R} fuel ev w (t : itree procE R) :
  run fuel ev w (go (observe t)) = run fuel ev w t.
Proof. destruct fuel; reflexivity. Qed.

Lemma run_Ret {R} fuel ev w (r : R) :
  run fuel ev w (Ret r) = ([], w, Ret r).
Proof. destruct fuel; reflexivity. Qed.

Lemma run_app {R} a b ev : forall w (t : itree procE R),
  run (a + b) ev w t =
  let '(cs1, w1, t1) := run a ev w t in
  let '(cs2, w2, t2) := run b ev w1 t1 in
  ((cs1 ++ cs2)%list, w2, t2).
Proof.
  induction a as [|a IH]; intros w t.
  - simpl. rewrite run_forced.
    destruct (run b ev w t) as [[cs w'] t']. reflexivity.
  - simpl. destruct (observe t) as [r | t' | T e k].
    + rewrite run_Ret. reflexivity.
    + apply IH.
    + destruct (handle ev w e) as [[c w'] x].
      rewrite IH.
      destruct (run a ev w' (k x)) as [[cs1 w1] t1].
      destruct (run b ev w1 t1) as [[cs2 w2] t2]. reflexivity.
Qed.

Lemma run_startup ticker ev :
  run 3 ev boot (supervisor ticker) =
  (startup_calls ticker ev, {| removes := 1; spawns := 0 |}, go (observe (cycling ticker))).
Proof.
  unfold startup_calls.
  force.
  destruct (remove_status ev 0%nat (c_str (ticker ++ "_stock_data.csv")) =? 0); reflexivity.
Qed.

Lemma run_cycle ticker ev w :
  run 6 ev w (cycling ticker) =
  (cycle_calls ticker ev (spawns w),
   {| removes := removes w; spawns := S (spawns w) |}, go (observe (cycling ticker))).
Proof.
  unfold cycle_calls. destruct w as [nr ns].
  force.
  destruct (system_status ev ns (c_str ("python scraper.py " ++ ticker)) =? 0); reflexivity.
Qed.

Lemma run_cycles ticker ev n : forall w,
  run (6 * n) ev w (cycling ticker) =
  (flat_map (cycle_calls ticker ev) (seq (spawns w) n),
   {| removes := removes w; spawns := spawns w + n |}, go (observe (cycling ticker))).
Proof.
  induction n as [|n IH]; intros w.
  - destruct w as [nr ns]. simpl. rewrite Nat.add_0_r. reflexivity.
  - replace (6 * S n)%nat with (6 + 6 * n)%nat by lia.
    rewrite run_app, run_cycle, run_forced, IH. simpl.
    rewrite Nat.add_succ_r. reflexivity.
Qed.

Lemma run_partial ticker ev w r :
  (r < 6)%nat ->
  fst (fst (run r ev w (cycling ticker))) = firstn r (cycle_calls ticker ev (spawns w)) /\
  returned (snd (run r ev w (cycling ticker))) = None.
Proof.
  intros Hr. unfold cycle_calls. destruct w as [nr ns].
  do 6 (destruct r as [|r];
        [ force;
          destruct (system_status ev ns (c_str ("python scraper.py " ++ ticker)) =? 0);
          split; reflexivity | ]).
  lia.
Qed.

Lemma run_early ticker ev fuel :
  (fuel < 3)%nat ->
  trace fuel ev (supervisor ticker) = firstn fuel (startup_calls ticker ev) /\
  returned (residue fuel ev (supervisor ticker)) = None.
Proof.
  intros Hf. unfold trace, residue, startup_calls.
  do 3 (destruct fuel as [|fuel];
        [ force;
          destruct (remove_status ev 0%nat (c_str (ticker ++ "_stock_data.csv")) =? 0);
          split; reflexivity | ]).
  lia.
Qed.

(** Every run of three steps or more: the startup calls, some whole
    rounds, and the first calls of the round in progress. *)
Lemma run_late ticker ev q r :
  (r < 6)%nat ->
  trace (3 + (6 * q + r)) ev (supervisor ticker) =
    (startup_calls ticker ev ++
     flat_map (cycle_calls ticker ev) (seq 0 q) ++
     firstn r (cycle_calls ticker ev q))%list /\
  returned (residue (3 + (6 * q + r)) ev (supervisor ticker)) = None.
Proof.
  intros Hr. unfold trace, residue.
  rewrite run_app, run_startup, run_forced.
  rewrite run_app, run_cycles, run_forced.
  cbn [removes spawns Nat.add].
  destruct (run_partial ticker ev {| removes := 1; spawns := q |} r Hr) as [Ht Hn].
  destruct (run r ev {| removes := 1; spawns := q |} (cycling ticker)) as [[cs w'] t'].
  cbn [fst snd] in *. subst cs. split; [reflexivity | exact Hn].
Qed.

Lemma fuel_cases fuel :
  (fuel < 3)%nat \/ exists q r, (r < 6)%nat /\ fuel = (3 + (6 * q + r))%nat.
Proof.
  destruct (Nat.lt_ge_cases fuel 3) as [H | H]; [left; exact H | right].
  exists ((fuel - 3) / 6)%nat, ((fuel - 3) mod 6)%nat. split.
  - apply Nat.mod_upper_bound. discriminate.
  - rewrite <- Nat.div_mod_eq. lia.
Qed.

(** ** Facts about every run *)

(** [supervisor] never reaches its [return 0]. *)
Lemma never_returns ticker ev fuel :
  returned (residue fuel ev (supervisor ticker)) = None.
Proof.
  destruct (fuel_cases fuel) as [H | (q & r & Hr & ->)].
  - apply run_early, H.
  - apply run_late, Hr.
Qed.

(** A longer run extends a shorter one. *)
Lemma trace_app {R} a d ev (t : itree procE R) :
  exists rest, trace (a + d) ev t = (trace a ev t ++ rest)%list.
Proof.
  unfold trace. rewrite run_app.
  destruct (run a ev boot t) as [[cs1 w1] t1].
  destruct (run d ev w1 t1) as [[cs2 w2] t2].
  exists cs2. reflexivity.
Qed.

Lemma length_rounds ticker ev n : forall a,
  List.length (flat_map (cycle_calls ticker ev) (seq a n)) = (5 * n)%nat.
Proof.
  induction n as [|n IH]; intros a; [reflexivity|].
  cbn [seq flat_map]. rewrite length_app, IH. cbn [cycle_calls List.length]. lia.
Qed.

(** After the startup and [n] whole rounds. *)
Lemma trace_rounds ticker ev n :
  trace (3 + 6 * n) ev (supervisor ticker) =
  (startup_calls ticker ev ++ flat_map (cycle_calls ticker ev) (seq 0 n))%list.
Proof.
  replace (6 * n)%nat with (6 * n + 0)%nat by lia.
  destruct (run_late ticker ev n 0) as [H _]; [lia|].
  rewrite H. cbn [firstn]. rewrite app_nil_r. reflexivity.
Qed.

Lemma round_of_trace ticker ev k d :
  round k (trace (3 + 6 * S k + d) ev (supervisor ticker)) = cycle_calls ticker ev k.
Proof.
  destruct (trace_app (3 + 6 * S k) d ev (supervisor ticker)) as [rest ->].
  rewrite trace_rounds, seq_S, flat_map_app. cbn [flat_map Nat.add].
  rewrite app_nil_r. unfold round.
  set (front := flat_map (cycle_calls ticker ev) (seq 0 k)).
  assert (Hlen : List.length (startup_calls ticker ev ++ front)%list = (3 + 5 * k)%nat).
  { rewrite length_app. unfold front. rewrite length_rounds. reflexivity. }
  rewrite <- !app_assoc, (app_assoc (startup_calls ticker ev)), <- Hlen.
  rewrite skipn_app, skipn_all, Nat.sub_diag. cbn [skipn app].
  reflexivity.
Qed.

Lemma forallb_firstn {A} (p : A -> bool) n : forall l,
  forallb p l = true -> forallb p (firstn n l) = true.
Proof.
  induction n as [|n IH]; intros [|x l]; cbn; try reflexivity.
  intros H. apply andb_true_iff in H as [Hx Hl]. rewrite Hx. cbn. apply IH, Hl.
Qed.

Lemma forallb_rounds (p : call -> bool) ticker ev :
  (forall k, forallb p (cycle_calls ticker ev k) = true) ->
  forall n a, forallb p (flat_map (cycle_calls ticker ev) (seq a n)) = true.
Proof.
  intros Hp. induction n as [|n IH]; intros a; [reflexivity|].
  cbn [seq flat_map]. rewrite forallb_app, Hp, IH. reflexivity.
Qed.

(** A property of calls that holds of the startup calls and of the calls
    of every round holds all along every run. *)
Lemma forallb_trace (p : call -> bool) ticker ev :
  forallb p (startup_calls ticker ev) = true ->
  (forall k, forallb p (cycle_calls ticker ev k) = true) ->
  forall fuel, forallb p (trace fuel ev (supervisor ticker)) = true.
Proof.
  intros Hs Hc fuel.
  destruct (fuel_cases fuel) as [H | (q & r & Hr & ->)].
  - destruct (run_early ticker ev fuel H) as [-> _]. apply forallb_firstn, Hs.
  - destruct (run_late ticker ev q r Hr) as [-> _].
    rewrite !forallb_app, Hs, forallb_rounds by exact Hc.
    rewrite forallb_firstn by apply Hc. reflexivity.
Qed.

Lemma pauses_app l1 l2 : pauses (l1 ++ l2) = (pauses l1 ++ pauses l2)%list.
Proof.
  induction l1 as [|c l1 IH]; [reflexivity|].
  destruct c; cbn; rewrite IH; reflexivity.
Qed.

Lemma pauses_rounds ticker ev n : forall a,
  pauses (flat_map (cycle_calls ticker ev) (seq a n)) = repeat 15 n.
Proof.
  induction n as [|n IH]; intros a; [reflexivity|].
  cbn [seq flat_map]. rewrite pauses_app, IH. unfold cycle_calls.
  destruct (system_status ev a (c_str ("python scraper.py " ++ ticker)) =? 0); reflexivity.
Qed.

Lemma pauses_partial ticker ev k r :
  (r < 6)%nat ->
  pauses (firstn r (cycle_calls ticker ev k)) = repeat 15 (r / 5).
Proof.
  intros Hr. unfold cycle_calls.
  do 6 (destruct r as [|r];
        [ destruct (system_status ev k (c_str ("python scraper.py " ++ ticker)) =? 0);
          reflexivity | ]).
  lia.
Qed.

Lemma pauses_early ticker ev fuel :
  pauses (firstn fuel (startup_calls ticker ev)) = [].
Proof.
  unfold startup_calls.
  destruct (remove_status ev 0%nat (c_str (ticker ++ "_stock_data.csv")) =? 0);
    do 3 (destruct fuel as [|fuel]; [reflexivity|]);
    cbn [firstn]; rewrite firstn_nil; reflexivity.
Qed.

(** How often a run of [fuel] steps has slept. *)
Lemma pauses_trace ticker ev fuel :
  pauses (trace fuel ev (supervisor ticker)) = repeat 15 ((fuel - 3) / 6 + (fuel - 3) mod 6 / 5).
Proof.
  destruct (fuel_cases fuel) as [H | (q & r & Hr & ->)].
  - destruct (run_early ticker ev fuel H) as [-> _].
    replace (fuel - 3)%nat with 0%nat by lia. apply pauses_early.
  - destruct (run_late ticker ev q r Hr) as [-> _].
    rewrite !pauses_app, pauses_rounds, pauses_partial by exact Hr.
    pose proof (pauses_early ticker ev 3) as Hs.
    rewrite firstn_all2 in Hs by reflexivity. rewrite Hs. cbn [app].
    replace (3 + (6 * q + r) - 3)%nat with (r + q * 6)%nat by lia.
    rewrite Nat.div_add, Nat.Div0.mod_add, (Nat.div_small r 6), (Nat.mod_small r 6) by lia.
    cbn [Nat.add]. symmetry. apply repeat_app.
Qed.

Lemma filter_none {A} (p : A -> bool) : forall l,
  forallb (fun x => negb (p x)) l = true -> filter p l = [].
Proof.
  induction l as [|x l IH]; cbn; [reflexivity|].
  intros H. apply andb_true_iff in H as [Hx Hl].
  apply negb_true_iff in Hx. rewrite Hx. apply IH, Hl.
Qed.

(** Past the startup, a run consists of calls of rounds only. *)
Lemma trace_tail ticker ev d :
  exists tail,
    trace (3 + d) ev (supervisor ticker) = (startup_calls ticker ev ++ tail)%list /\
    forall p : call -> bool,
      (forall k, forallb p (cycle_calls ticker ev k) = true) -> forallb p tail = true.
Proof.
  destruct (fuel_cases (3 + d)) as [H | (q & r & Hr & E)]; [lia|].
  rewrite E. destruct (run_late ticker ev q r Hr) as [-> _].
  eexists. split; [reflexivity|]. intros p Hp.
  rewrite forallb_app, forallb_rounds, forallb_firstn by apply Hp. reflexivity.
Qed.

Lemma residue_rounds ticker ev n :
  residue (3 + 6 * n) ev (supervisor ticker) = go (observe (cycling ticker)).
Proof.
  unfold residue. rewrite run_app, run_startup, run_forced, run_cycles. reflexivity.
Qed.

Lemma spawned_rounds ticker ev n : forall a,
  List.length (filter system_call (flat_map (cycle_calls ticker ev) (seq a n))) = n.
Proof.
  induction n as [|n IH]; intros a; [reflexivity|].
  cbn [seq flat_map]. rewrite filter_app, length_app, IH. unfold cycle_calls.
  destruct (system_status ev a (c_str ("python scraper.py " ++ ticker)) =? 0); reflexivity.
Qed.

Lemma trace_first_five ticker ev fuel :
  firstn 5 (trace (5 + fuel) ev (supervisor ticker)) =
  (startup_calls ticker ev ++ firstn 2 (cycle_calls ticker ev 0))%list.
Proof.
  destruct (trace_app 5 fuel ev (supervisor ticker)) as [rest ->].
  destruct (run_late ticker ev 0 2) as [H _]; [lia|].
  change (3 + (6 * 0 + 2))%nat with 5%nat in H. rewrite H.
  cbn [seq flat_map app firstn startup_calls cycle_calls]. reflexivity.
Qed.

Lemma classify_eqb st : classify st = if st =? 0 then Success else Failure.
Proof. destruct st; reflexivity. Qed.

(** ** The claims *)

(** C1. In round [k] of any run the line printed after the [system] call
    is the one for [classify st], where [st] is the value that call
    returned in this round: nothing else enters the choice.  [classify]
    answers [Success] for 0 and [Failure] for every other value, the
    nonzero value of a failed launch included. *)
Theorem C1_outcome_from_status ticker ev k d :
  let st := system_status ev k (c_str ("python scraper.py " ++ ticker)) in
  let tr := round k (trace (3 + 6 * S k + d) ev (supervisor ticker)) in
  nth_error tr 1 = Some (CSystem (c_str ("python scraper.py " ++ ticker)) st) /\
  nth_error tr 2 = Some (report (classify st)) /\
  (forall s, classify s = Success <-> s = 0) /\
  (forall s, classify s = Failure <-> s <> 0).
Proof.
  cbv zeta. rewrite round_of_trace. unfold cycle_calls.
  repeat split; try (destruct s; cbn; congruence).
  cbn [nth_error]. rewrite classify_eqb.
  destruct (system_status ev k (c_str ("python scraper.py " ++ ticker)) =? 0); reflexivity.
Qed.

(** C2. Whatever the ticker and whatever [remove] answers (file deleted,
    absent or not deletable), the program never returns, and its first
    five calls are the [remove], one line on [std::cout], the banner, and
    the first two calls of the loop. *)
Theorem C2_reset_never_aborts ticker ev fuel :
  returned (residue fuel ev (supervisor ticker)) = None /\
  exists line st,
    firstn 5 (trace (5 + fuel) ev (supervisor ticker)) =
    [ CRemove (c_str (ticker ++ "_stock_data.csv"))
              (remove_status ev 0%nat (c_str (ticker ++ "_stock_data.csv")));
      CCout line;
      CCout ("Starting stock data scraper for " ++ ticker ++ " every 60 seconds..." ++ nl);
      CCout ("Running Python scraper for " ++ ticker ++ "..." ++ nl);
      CSystem (c_str ("python scraper.py " ++ ticker)) st ].
Proof.
  split; [apply never_returns|].
  rewrite trace_first_five. unfold startup_calls, cycle_calls. cbn [firstn app].
  destruct (remove_status ev 0%nat (c_str (ticker ++ "_stock_data.csv")) =? 0);
    eexists; eexists; reflexivity.
Qed.

(** C3. The second call of every run is a line on [std::cout]; it is the
    line naming [csvFilename] exactly when [remove] returned 0, and the
    line saying that nothing was deleted exactly when [remove] returned
    anything else.  The two lines differ for every ticker. *)
Theorem C3_reset_message ticker ev d :
  let csvFilename := ticker ++ "_stock_data.csv" in
  let rc := remove_status ev 0%nat (c_str csvFilename) in
  let deleted := CCout ("Deleted old CSV file: " ++ csvFilename ++ nl) in
  let nothing := CCout ("No CSV file to delete or failed to delete." ++ nl) in
  let said := nth_error (trace (2 + d) ev (supervisor ticker)) 1 in
  (said = Some deleted <-> rc = 0) /\
  (said = Some nothing <-> rc <> 0) /\
  deleted <> nothing.
Proof.
  cbv zeta.
  destruct (trace_app 2 d ev (supervisor ticker)) as [rest ->].
  destruct (run_early ticker ev 2) as [-> _]; [lia|].
  unfold startup_calls. cbn [firstn app nth_error].
  destruct (Z.eqb_spec (remove_status ev 0%nat (c_str (ticker ++ "_stock_data.csv"))) 0)
    as [E | E].
  - repeat split; intros; try easy.
  - repeat split; intros; try easy.
Qed.

(** C4. The file handed to [remove] is the ticker followed by the fixed
    suffix [_stock_data.csv] (as a C string); in [main], whose ticker is
    [SPY], it is [SPY_stock_data.csv]. *)
Theorem C4_artifact_path :
  (forall ticker ev d,
     hd_error (trace (1 + d) ev (supervisor ticker)) =
     Some (CRemove (c_str (ticker ++ "_stock_data.csv"))
                   (remove_status ev 0%nat (c_str (ticker ++ "_stock_data.csv"))))) /\
  (forall ev d,
     hd_error (trace (1 + d) ev main) =
     Some (CRemove "SPY_stock_data.csv" (remove_status ev 0%nat "SPY_stock_data.csv"))).
Proof.
  assert (H : forall ticker ev d,
     hd_error (trace (1 + d) ev (supervisor ticker)) =
     Some (CRemove (c_str (ticker ++ "_stock_data.csv"))
                   (remove_status ev 0%nat (c_str (ticker ++ "_stock_data.csv"))))).
  { intros ticker ev d.
    destruct (trace_app 1 d ev (supervisor ticker)) as [rest ->].
    destruct (run_early ticker ev 1) as [-> _]; [lia|]. reflexivity. }
  split; [exact H|]. intros ev d. apply (H "SPY").
Qed.

(** C5. Every run starts with the [remove] of the ticker's file, and no
    later call of the run reaches the filesystem. *)
Theorem C5_file_touched_once ticker ev fuel :
  exists rc rest,
    trace (1 + fuel) ev (supervisor ticker) =
      CRemove (c_str (ticker ++ "_stock_data.csv")) rc :: rest /\
    forallb (fun c => negb (file_call c)) rest = true.
Proof.
  destruct (fuel_cases (1 + fuel)) as [H | (q & r & Hr & ->)].
  - destruct (run_early ticker ev (1 + fuel) H) as [-> _]. unfold startup_calls.
    destruct fuel as [|[|fuel]]; [| |lia]; eexists; eexists; (split; [reflexivity|]).
    + reflexivity.
    + destruct (remove_status ev 0%nat (c_str (ticker ++ "_stock_data.csv")) =? 0);
        reflexivity.
  - destruct (run_late ticker ev q r Hr) as [-> _]. unfold startup_calls.
    eexists; eexists; split; [reflexivity|].
    assert (Hc : forall k, forallb (fun c => negb (file_call c)) (cycle_calls ticker ev k) = true).
    { intros k. unfold cycle_calls.
      destruct (system_status ev k (c_str ("python scraper.py " ++ ticker)) =? 0);
        reflexivity. }
    cbn [app forallb]. rewrite forallb_app.
    rewrite forallb_rounds, forallb_firstn by apply Hc.
    destruct (remove_status ev 0%nat (c_str (ticker ++ "_stock_data.csv")) =? 0);
      reflexivity.
Qed.

(** C6. Round [k] of [main] starts when [3 + 5 * k] calls have been made
    and consists of exactly these five, in this order: the line announcing
    the scraper, the [system] call on [python scraper.py SPY], the success
    line on [std::cout] or the failure line on [std::cerr] according to
    the value [system] returned, the line announcing the wait, and a sleep
    of 15 seconds. *)
Theorem C6_round_order ev k d :
  let st := system_status ev k "python scraper.py SPY" in
  List.length (trace (3 + 6 * k) ev main) = (3 + 5 * k)%nat /\
  round k (trace (3 + 6 * S k + d) ev main) =
  [ CCout ("Running Python scraper for SPY..." ++ nl);
    CSystem "python scraper.py SPY" st;
    (if st =? 0
     then CCout ("Stock data scraped successfully." ++ nl)
     else CCerr ("Failed to run the Python script." ++ nl));
    CCout ("Waiting 15 seconds..." ++ nl);
    CSleep 15 ].
Proof.
  cbv zeta. unfold main. split.
  - rewrite trace_rounds, length_app, length_rounds. reflexivity.
  - rewrite round_of_trace. reflexivity.
Qed.

(** C7. Whatever statuses the scraper returns, [main] never returns; after
    the startup and after each whole round what is left to run is the same
    loop; and after [n] rounds [system] has been called [n] times, for
    every [n]. *)
Theorem C7_loop_never_ends ev :
  (forall fuel, returned (residue fuel ev main) = None) /\
  (forall n, residue (3 + 6 * n) ev main = go (observe (cycling "SPY"))) /\
  (forall n, List.length (filter system_call (trace (3 + 6 * n) ev main)) = n).
Proof.
  unfold main. repeat split; intros.
  - apply never_returns.
  - apply residue_rounds.
  - rewrite trace_rounds, filter_app, length_app, spawned_rounds. unfold startup_calls.
    destruct (remove_status ev 0%nat (c_str ("SPY" ++ "_stock_data.csv")) =? 0);
      reflexivity.
Qed.

(** C8. Two runs of the same number of steps sleep equally often and for
    the same durations whatever the two environments answer, and every
    sleep lasts 15 seconds; in particular round [k] ends with a sleep of
    15 seconds under both. *)
Theorem C8_pause_independent ev1 ev2 fuel k d :
  pauses (trace fuel ev1 main) = pauses (trace fuel ev2 main) /\
  Forall (fun p => p = 15) (pauses (trace fuel ev1 main)) /\
  nth_error (round k (trace (3 + 6 * S k + d) ev1 main)) 4 = Some (CSleep 15) /\
  nth_error (round k (trace (3 + 6 * S k + d) ev2 main)) 4 = Some (CSleep 15).
Proof.
  unfold main. rewrite !pauses_trace, !round_of_trace.
  split; [reflexivity|]. split; [|split; reflexivity].
  apply Forall_forall. intros p Hp. apply repeat_spec in Hp. exact Hp.
Qed.

(** C9. In every run the path removed and every command line run are
    built from the one ticker the program was started with; in [main]
    they are [SPY_stock_data.csv] and [python scraper.py SPY]. *)
Theorem C9_same_ticker :
  (forall ticker ev fuel,
     forallb (built_from ticker) (trace fuel ev (supervisor ticker)) = true) /\
  (forall ev fuel,
     forallb (fun c => match c with
                       | CRemove path _ => String.eqb path "SPY_stock_data.csv"
                       | CSystem cmd _ => String.eqb cmd "python scraper.py SPY"
                       | _ => true
                       end) (trace fuel ev main) = true).
Proof.
  assert (H : forall ticker ev fuel,
     forallb (built_from ticker) (trace fuel ev (supervisor ticker)) = true).
  { intros ticker ev fuel. apply forallb_trace.
    - unfold startup_calls. cbn [forallb built_from]. rewrite String.eqb_refl.
      destruct (remove_status ev 0%nat (c_str (ticker ++ "_stock_data.csv")) =? 0);
        reflexivity.
    - intros k. unfold cycle_calls. cbn [forallb built_from]. rewrite String.eqb_refl.
      destruct (system_status ev k (c_str ("python scraper.py " ++ ticker)) =? 0);
        reflexivity. }
  split; [exact H|]. intros ev fuel. exact (H "SPY" ev fuel).
Qed.

(** C10. The banner is the third call of [main] and is printed only
    once; it announces 60 seconds.  Every sleep of every run lasts 15
    seconds, which is not the number announced, and after [n] rounds
    there have been [n] sleeps. *)
Theorem C10_banner_says_60_loop_sleeps_15 ev d fuel n :
  let banner := "Starting stock data scraper for SPY every 60 seconds..." ++ nl in
  nth_error (trace (3 + d) ev main) 2 = Some (CCout banner) /\
  filter is_banner (trace (3 + d) ev main) = [CCout banner] /\
  announced_seconds banner = Some 60 /\
  Forall (fun p => p = 15 /\ Some p <> announced_seconds banner) (pauses (trace fuel ev main)) /\
  pauses (trace (3 + 6 * n) ev main) = repeat 15 n.
Proof.
  cbv zeta. unfold main.
  destruct (trace_tail "SPY" ev d) as (tail & -> & Htail).
  split; [reflexivity|]. split; [|split; [reflexivity|split]].
  - rewrite filter_app, (filter_none is_banner tail).
    + unfold startup_calls.
      destruct (remove_status ev 0%nat (c_str ("SPY" ++ "_stock_data.csv")) =? 0);
        reflexivity.
    + apply Htail. intros k. unfold cycle_calls.
      destruct (system_status ev k (c_str ("python scraper.py " ++ "SPY")) =? 0);
        reflexivity.
  - rewrite pauses_trace. apply Forall_forall. intros p Hp.
    apply repeat_spec in Hp. subst p. split; [reflexivity | discriminate].
  - rewrite trace_rounds, pauses_app, pauses_rounds.
    pose proof (pauses_early "SPY" ev 3) as Hs.
    rewrite firstn_all2 in Hs by reflexivity. rewrite Hs. reflexivity.
Qed.

(** ** Further properties of [main] *)

Lemma stderr_app l1 l2 : stderr_of (l1 ++ l2) = (stderr_of l1 ++ stderr_of l2)%list.
Proof.
  induction l1 as [|c l1 IH]; [reflexivity|].
  destruct c; cbn; rewrite IH; reflexivity.
Qed.

Lemma stdout_app l1 l2 : stdout_of (l1 ++ l2) = (stdout_of l1 ++ stdout_of l2)%list.
Proof.
  induction l1 as [|c l1 IH]; [reflexivity|].
  destruct c; cbn; rewrite IH; reflexivity.
Qed.

Lemma stderr_rounds ticker ev n : forall a,
  stderr_of (flat_map (cycle_calls ticker ev) (seq a n)) =
  repeat ("Failed to run the Python script." ++ nl) (List.length (failed_rounds ticker ev a n)).
Proof.
  unfold failed_rounds.
  induction n as [|n IH]; intros a; [reflexivity|].
  cbn [seq flat_map filter]. rewrite stderr_app, IH. unfold cycle_calls.
  destruct (system_status ev a (c_str ("python scraper.py " ++ ticker)) =? 0); reflexivity.
Qed.

Lemma stdout_rounds ticker ev n : forall a,
  (List.length (stdout_of (flat_map (cycle_calls ticker ev) (seq a n))) +
   List.length (failed_rounds ticker ev a n) = 3 * n)%nat.
Proof.
  unfold failed_rounds.
  induction n as [|n IH]; intros a; [reflexivity|].
  cbn [seq flat_map filter]. rewrite stdout_app, length_app. specialize (IH (S a)).
  set (later := stdout_of (flat_map (cycle_calls ticker ev) (seq (S a) n))) in *.
  unfold cycle_calls.
  destruct (system_status ev a (c_str ("python scraper.py " ++ ticker)) =? 0);
    cbn [stdout_of negb List.length]; lia.
Qed.

(** X1. After the startup and [n] rounds, [std::cerr] has received one
    failure line for each round whose [system] call returned a value other
    than 0 and nothing else (a [remove] that fails is reported on
    [std::cout]); the lines on the two streams add up to [2 + 3 * n]. *)
Theorem X1_stderr_is_one_line_per_failed_round ticker ev n :
  stderr_of (trace (3 + 6 * n) ev (supervisor ticker)) =
    repeat ("Failed to run the Python script." ++ nl)
           (List.length (failed_rounds ticker ev 0 n)) /\
  (List.length (stdout_of (trace (3 + 6 * n) ev (supervisor ticker))) +
   List.length (stderr_of (trace (3 + 6 * n) ev (supervisor ticker))) = 2 + 3 * n)%nat.
Proof.
  rewrite trace_rounds, stderr_app, stdout_app, stderr_rounds, !length_app, repeat_length.
  pose proof (stdout_rounds ticker ev n 0) as Hout.
  set (later := stdout_of (flat_map (cycle_calls ticker ev) (seq 0 n))) in *.
  unfold startup_calls.
  destruct (remove_status ev 0%nat (c_str (ticker ++ "_stock_data.csv")) =? 0);
    (split; [reflexivity | cbn [stdout_of stderr_of List.length]; lia]).
Qed.

Lemma spawned_partial ticker ev k r :
  (r < 6)%nat ->
  List.length (filter system_call (firstn r (cycle_calls ticker ev k))) =
  (if r <? 2 then 0 else 1)%nat.
Proof.
  intros Hr. unfold cycle_calls.
  do 6 (destruct r as [|r];
        [ destruct (system_status ev k (c_str ("python scraper.py " ++ ticker)) =? 0);
          reflexivity | ]).
  lia.
Qed.

Lemma pauses_partial_length ticker ev k r :
  (r < 6)%nat ->
  List.length (pauses (firstn r (cycle_calls ticker ev k))) = (if r <? 5 then 0 else 1)%nat.
Proof.
  intros Hr. unfold cycle_calls.
  do 6 (destruct r as [|r];
        [ destruct (system_status ev k (c_str ("python scraper.py " ++ ticker)) =? 0);
          reflexivity | ]).
  lia.
Qed.

(** X2. At every point of every run the scraper has been launched as often
    as the program has slept, or once more: no sleep comes before the first
    launch, and no two launches come without a sleep between them, whatever
    the launches return. *)
Theorem X2_launches_and_sleeps_alternate ticker ev fuel :
  let tr := trace fuel ev (supervisor ticker) in
  (List.length (pauses tr) <= List.length (filter system_call tr))%nat /\
  (List.length (filter system_call tr) <= S (List.length (pauses tr)))%nat.
Proof.
  cbv zeta.
  destruct (fuel_cases fuel) as [H | (q & r & Hr & ->)].
  - destruct (run_early ticker ev fuel H) as [-> _]. rewrite pauses_early.
    unfold startup_calls.
    destruct (remove_status ev 0%nat (c_str (ticker ++ "_stock_data.csv")) =? 0);
      do 3 (destruct fuel as [|fuel]; [cbn; lia|]); lia.
  - destruct (run_late ticker ev q r Hr) as [-> _].
    rewrite !pauses_app, !filter_app, !length_app.
    rewrite pauses_rounds, repeat_length, spawned_rounds.
    rewrite pauses_partial_length, spawned_partial by exact Hr.
    pose proof (pauses_early ticker ev 3) as Hs.
    rewrite firstn_all2 in Hs by reflexivity. rewrite Hs.
    assert (Hf : filter system_call (startup_calls ticker ev) = []).
    { unfold startup_calls.
      destruct (remove_status ev 0%nat (c_str (ticker ++ "_stock_data.csv")) =? 0);
        reflexivity. }
    rewrite Hf. cbn [List.length].
    destruct (Nat.ltb_spec r 2), (Nat.ltb_spec r 5); lia.
Qed.

Lemma cycle_calls_with_remove ticker rm ev k :
  cycle_calls ticker (with_remove rm ev) k = cycle_calls ticker ev k.
Proof. reflexivity. Qed.

Lemma rounds_with_remove ticker rm ev n : forall a,
  flat_map (cycle_calls ticker (with_remove rm ev)) (seq a n) =
  flat_map (cycle_calls ticker ev) (seq a n).
Proof.
  induction n as [|n IH]; intros a; [reflexivity|].
  cbn [seq flat_map]. rewrite IH, cycle_calls_with_remove. reflexivity.
Qed.

(** X3. What [remove] returns decides the second call and nothing after
    it: two runs of the same number of steps that differ only in the
    answers of [remove] make the same calls from the third on. *)
Theorem X3_cleanup_result_stays_in_startup ticker ev rm fuel :
  skipn 2 (trace fuel (with_remove rm ev) (supervisor ticker)) =
  skipn 2 (trace fuel ev (supervisor ticker)).
Proof.
  destruct (fuel_cases fuel) as [H | (q & r & Hr & ->)].
  - destruct (run_early ticker ev fuel H) as [-> _].
    destruct (run_early ticker (with_remove rm ev) fuel H) as [-> _].
    unfold startup_calls.
    do 3 (destruct fuel as [|fuel]; [reflexivity|]). lia.
  - destruct (run_late ticker ev q r Hr) as [-> _].
    destruct (run_late ticker (with_remove rm ev) q r Hr) as [-> _].
    rewrite rounds_with_remove, cycle_calls_with_remove. reflexivity.
Qed.

Lemma c_str_no_nul s : no_nul s = true -> c_str s = s.
Proof.
  induction s as [|c s IH]; [reflexivity|]. cbn.
  destruct (Ascii.eqb c "000"); cbn; [discriminate|].
  intros H. rewrite IH by exact H. reflexivity.
Qed.

Lemma no_nul_app s1 s2 : no_nul (s1 ++ s2) = no_nul s1 && no_nul s2.
Proof.
  induction s1 as [|c s1 IH]; [reflexivity|]. cbn.
  rewrite IH. apply andb_assoc.
Qed.

(** X4. For a ticker without a NUL character, the file handed to [remove]
    is the very name printed on a successful deletion, and the command
    line run by the loop ends in the whole ticker. *)
Theorem X4_removed_file_is_the_one_reported ticker ev d :
  no_nul ticker = true ->
  remove_status ev 0%nat (ticker ++ "_stock_data.csv") = 0 ->
  firstn 2 (trace (5 + d) ev (supervisor ticker)) =
    [ CRemove (ticker ++ "_stock_data.csv") 0;
      CCout ("Deleted old CSV file: " ++ (ticker ++ "_stock_data.csv") ++ nl) ] /\
  nth_error (trace (5 + d) ev (supervisor ticker)) 4 =
    Some (CSystem ("python scraper.py " ++ ticker)
                  (system_status ev 0%nat ("python scraper.py " ++ ticker))).
Proof.
  intros Hn Hrm.
  assert (Hp : c_str (ticker ++ "_stock_data.csv") = ticker ++ "_stock_data.csv").
  { apply c_str_no_nul. rewrite no_nul_app, Hn. reflexivity. }
  assert (Hc : c_str ("python scraper.py " ++ ticker) = "python scraper.py " ++ ticker).
  { apply c_str_no_nul. rewrite no_nul_app, Hn. reflexivity. }
  destruct (trace_app 5 d ev (supervisor ticker)) as [rest ->].
  destruct (run_late ticker ev 0 2) as [H _]; [lia|].
  change (3 + (6 * 0 + 2))%nat with 5%nat in H. rewrite H.
  unfold startup_calls, cycle_calls. rewrite Hp, Hc, Hrm.
  split; reflexivity.
Qed.

Lemma X4_removed_file_is_the_one_reported_witness :
  firstn 2 (trace (5 + 0) (env_of 0 (fun _ => 0)) (supervisor "SPY")) =
    [ CRemove ("SPY" ++ "_stock_data.csv") 0;
      CCout ("Deleted old CSV file: " ++ ("SPY" ++ "_stock_data.csv") ++ nl) ] /\
  nth_error (trace (5 + 0) (env_of 0 (fun _ => 0)) (supervisor "SPY")) 4 =
    Some (CSystem ("python scraper.py " ++ "SPY")
                  (system_status (env_of 0 (fun _ => 0)) 0%nat ("python scraper.py " ++ "SPY"))).
Proof.
  apply (X4_removed_file_is_the_one_reported "SPY" (env_of 0 (fun _ => 0)) 0);
    reflexivity.
Defined.
